(** * Mortgage prepayment calculator: the amortization loop of
      [mortgage_web_tool.py], embedded and checked against its specification.

    The Python function [calculate_mortgage_savings] computes on [float]s.
    Its text is embedded once, over an interface [Num] of the arithmetic it
    uses, and read at [float_Num]: IEEE 754 binary64 (Rocq's primitive
    floats), which is what CPython executes; definitions run with
    [vm_compute].

    Facts that only depend on the shape of the loop are proved for every
    [Num] and every [nper], binary64 included; facts about signs, zeros and
    NaN are proved for binary64 from the specification of its operations
    ([SpecFloat]); concrete runs are evaluated in binary64. *)

From Stdlib Require Import ZArith List String Bool Lia.
From Stdlib Require Import Floats.
Import ListNotations.

Set Implicit Arguments.
Set Warnings "-inexact-float".

(** ** The arithmetic the source uses *)

Class Num (F : Type) : Type := {
  of_int : Z -> F;          (* an [int] literal used where a float is expected *)
  neg : F -> F;             (* unary [-] *)
  add : F -> F -> F;
  sub : F -> F -> F;
  mul : F -> F -> F;
  div : F -> F -> F;
  gtb : F -> F -> bool      (* [a > b] *)
}.

(** Python's builtin [max(a, b)] on two arguments: the first one is kept
    unless the second is strictly greater. *)
Definition pymax {F} `{Num F} (a b : F) : F := if gtb b a then b else a.

(** ** Data *)

(** One entry of [history] (the dict appended at each month). *)
Record MonthRecord (F : Type) : Type := mkMonth {
  month : Z;
  remaining_principal : F;
  monthly_interest : F
}.

(** The local variables of [calculate_mortgage_savings] that the loop updates,
    and the lines [st.write] has shown so far. *)
Module Loop.
Record state (F : Type) : Type := mk {
  current_principal : F;
  total_interest : F;
  month_count : Z;
  prepayment_month : Z;
  history : list (MonthRecord F);
  written : list (MonthRecord F)
}.
End Loop.

(** The dict the function returns. *)
Record Result (F : Type) : Type := mkResult {
  total_months : Z;
  total_interest : F;
  interest_saved : F;
  history : list (MonthRecord F)
}.

(** ** The function *)

Section Simulator.
Context {F : Type} {num : Num F}.

(** [numpy_financial.nper(rate, pmt, pv)], imported by the source. *)
Variable nper : F -> F -> F -> F.

Section Body.
Variables (monthly_payment monthly_rate prepayment_amount : F).
Variable prepayment_freq : string.
Variable verbose : bool.

(** The [if]/[elif] on [prepayment_freq]: the balance after the
    prepayment (if any) and the new value of [prepayment_month]. *)
Definition apply_prepayment (month_count prepayment_month : Z)
    (current_principal : F) : F * Z :=
  if String.eqb prepayment_freq "monthly" then
    (sub current_principal prepayment_amount, prepayment_month)
  else if String.eqb prepayment_freq "yearly" then
    if ((month_count - prepayment_month) mod 12 =? 0)%Z then
      (sub current_principal prepayment_amount, month_count)
    else (current_principal, prepayment_month)
  else (current_principal, prepayment_month).

(** One pass through the body of [while current_principal > 0]. *)
Definition loop_body (st : Loop.state F) : Loop.state F :=
  let month_count := (Loop.month_count st + 1)%Z in
  let monthly_interest := mul (Loop.current_principal st) monthly_rate in
  let monthly_principal := sub monthly_payment monthly_interest in
  let total_interest := add (Loop.total_interest st) monthly_interest in
  let current_principal := sub (Loop.current_principal st) monthly_principal in
  let after :=
    apply_prepayment month_count (Loop.prepayment_month st) current_principal in
  let current_principal := pymax (fst after) (of_int 0) in
  let record := mkMonth month_count current_principal monthly_interest in
  Loop.mk current_principal total_interest month_count (snd after)
    (Loop.history st ++ [record])
    (if verbose then Loop.written st ++ [record] else Loop.written st).

(** The loop condition. *)
Definition loop_guard (st : Loop.state F) : bool :=
  gtb (Loop.current_principal st) (of_int 0).

(** The [while] loop, run for at most [fuel] passes: [None] when the
    condition still holds after [fuel] passes. *)
Fixpoint while_loop (fuel : nat) (st : Loop.state F) {struct fuel}
    : option (Loop.state F) :=
  if loop_guard st then
    match fuel with
    | O => None
    | S fuel' => while_loop fuel' (loop_body st)
    end
  else Some st.
End Body.

(** [monthly_rate = annual_rate / 12 / 100]. *)
Definition monthly_rate_of (annual_rate : F) : F :=
  div (div annual_rate (of_int 12)) (of_int 100).

(** The values of the locals when the loop is entered. *)
Definition initial_state (initial_principal : F) : Loop.state F :=
  Loop.mk initial_principal (of_int 0) 0 0 [] [].

(** [original_total_interest], computed before the loop. *)
Definition original_total_interest_of
    (initial_principal monthly_payment monthly_rate : F) : F :=
  sub (mul monthly_payment
         (nper monthly_rate (neg monthly_payment) initial_principal))
      initial_principal.

(** [calculate_mortgage_savings]: the returned dict and what was displayed,
    or [None] when the loop is still running after [fuel] passes. *)
Definition calculate_mortgage_savings (fuel : nat)
    (initial_principal monthly_payment annual_rate prepayment_amount : F)
    (prepayment_freq : string) (verbose : bool)
    : option (Result F * list (MonthRecord F)) :=
  let monthly_rate := monthly_rate_of annual_rate in
  let original_total_interest :=
    original_total_interest_of initial_principal monthly_payment monthly_rate in
  match while_loop monthly_payment monthly_rate prepayment_amount
          prepayment_freq verbose fuel (initial_state initial_principal) with
  | None => None
  | Some st =>
      let interest_saved :=
        sub original_total_interest (Loop.total_interest st) in
      Some (mkResult (Loop.month_count st) (Loop.total_interest st)
              interest_saved (Loop.history st),
            Loop.written st)
  end.
End Simulator.

(** ** Binary64 *)

(** The literals the source converts are small integers. *)
Definition float_of_int (z : Z) : float :=
  match z with
  | Zneg p => PrimFloat.opp (PrimFloat.of_uint63 (Uint63.of_Z (Zpos p)))
  | _ => PrimFloat.of_uint63 (Uint63.of_Z z)
  end.

#[export] Instance float_Num : Num float := {
  of_int := float_of_int;
  neg := PrimFloat.opp;
  add := PrimFloat.add;
  sub := PrimFloat.sub;
  mul := PrimFloat.mul;
  div := PrimFloat.div;
  gtb := fun a b => PrimFloat.ltb b a
}.


(** ** The library function the source calls *)

(** Modelled from the spec: [numpy_financial.nper] is imported by the source
    and is not part of the repository.  This is the value release 1.0.0 of
    the library returns on its zero-rate path, [(-fv + pv) / pmt], with the
    default [fv = 0] (an [int]) that the call on line 24 leaves in place. *)
Definition nper_zero_rate {F} `{Num F} (rate pmt pv : F) : F :=
  div (add (of_int (- 0)) pv) pmt.

(** Modelled from the spec: the test numpy makes under
    [np.errstate(divide="raise")].  The division [x / y] raises
    [FloatingPointError] when it sets the IEEE divide-by-zero flag: [y] is a
    zero and [x] is finite and not a zero. *)
Definition division_raises (x y : float) : bool :=
  PrimFloat.is_zero y && PrimFloat.is_finite x && negb (PrimFloat.is_zero x).

(** Modelled from the spec: [numpy_financial.nper(rate, pmt, pv)] of release
    1.0.0, with the defaults [fv = 0] and [when = 'end'] (that is 0), in
    binary64.  The library computes [z = pmt * (1 + rate * when) / rate]
    under [np.errstate(divide="raise")] and takes its zero-rate path when
    that raises; otherwise it returns
    [np.where(rate == 0, A, B)] with [A = -(fv + pv) / (pmt + 0)] and
    [B = np.log((-fv + z) / (pv + z)) / np.log(1 + rate)].  [log] stands
    for [numpy.log]. *)
Definition npf_nper (log : float -> float) (rate pmt pv : float) : float :=
  let fv := of_int 0 in
  let when := of_int 0 in
  let numerator := (pmt * (1 + rate * when))%float in
  if division_raises numerator rate then nper_zero_rate rate pmt pv
  else
    let z := (numerator / rate)%float in
    let A := (- (fv + pv) / (pmt + 0))%float in
    let B := (log ((of_int (- 0) + z) / (pv + z)) / log (1 + rate))%float in
    if (rate =? 0)%float then A else B.

(** ** Vocabulary of the specification *)

(** The sum of the [monthly_interest] entries of a ledger, added in order
    starting from zero (as [total_interest += monthly_interest] does). *)
Definition sum_interest {F} `{Num F} (h : list (MonthRecord F)) : F :=
  fold_left add (map (@monthly_interest F) h) (of_int 0).

(** The loop's counters agree with its ledger. *)
Definition counters_agree {F} `{Num F} (st : Loop.state F) : Prop :=
  Loop.month_count st = Z.of_nat (List.length (Loop.history st)) /\
  Loop.total_interest st = sum_interest (Loop.history st).

(** A ledger read month by month: [entry_ok m opening r] is asked of each
    record [r], where [m] is its position (counted from [k + 1]) and
    [opening] the balance the month starts from, which is the
    [remaining_principal] of the record before it ([opening] for the first). *)
Fixpoint ledger_from {F} (entry_ok : Z -> F -> MonthRecord F -> Prop)
    (k : Z) (opening : F) (h : list (MonthRecord F)) : Prop :=
  match h with
  | [] => True
  | r :: h' =>
      entry_ok (k + 1)%Z opening r /\
      ledger_from entry_ok (k + 1)%Z (remaining_principal r) h'
  end.

(** The balance a ledger ends with. *)
Definition closing_balance {F} (opening : F) (h : list (MonthRecord F)) : F :=
  fold_left (fun _ r => remaining_principal r) h opening.

(** The locals with the displayed lines dropped. *)
Definition silent {F} (st : Loop.state F) : Loop.state F :=
  Loop.mk (Loop.current_principal st) (Loop.total_interest st)
    (Loop.month_count st) (Loop.prepayment_month st) (Loop.history st) [].

(** What a month of the yearly policy leaves: the record is numbered [m],
    and its balance is the opening balance less the scheduled principal,
    less [prepayment_amount] exactly when [m] is a multiple of 12, floored
    at zero. *)
Definition yearly_entry {F} `{Num F}
    (monthly_payment monthly_rate prepayment_amount : F)
    (m : Z) (opening : F) (r : MonthRecord F) : Prop :=
  month r = m /\
  remaining_principal r =
    let scheduled :=
      sub opening (sub monthly_payment (mul opening monthly_rate)) in
    pymax (if (m mod 12 =? 0)%Z then sub scheduled prepayment_amount
           else scheduled)
          (of_int 0).

(** The record of a month carries the interest on its opening balance. *)
Definition interest_entry {F} `{Num F} (monthly_rate : F)
    (m : Z) (opening : F) (r : MonthRecord F) : Prop :=
  monthly_interest r = mul opening monthly_rate.
(** The balances recorded in a ledger, in order. *)
Definition balances {F} (h : list (MonthRecord F)) : list F :=
  map (@remaining_principal F) h.

(** [prepayment_month] is the last multiple of 12 that [month_count] has
    reached (the invariant of the yearly branch). *)
Definition yearly_counter {F} (st : Loop.state F) : Prop :=
  (0 <= Loop.month_count st)%Z /\
  Loop.prepayment_month st = (12 * (Loop.month_count st / 12))%Z.

(** The ledger so far is as [entry_ok] asks, from [opening]; the balance in
    hand is the one it closes with. *)
Definition ledger_inv {F}
    (entry_ok : Z -> F -> MonthRecord F -> Prop) (opening : F)
    (st : Loop.state F) : Prop :=
  ledger_from entry_ok 0 opening (Loop.history st) /\
  Loop.current_principal st = closing_balance opening (Loop.history st) /\
  Loop.month_count st = Z.of_nat (List.length (Loop.history st)).

(** The balance a pass of the monthly policy leaves, as a function of the
    balance it starts from (the other locals do not enter it). *)
Definition monthly_balance {F} `{Num F}
    (monthly_payment monthly_rate prepayment_amount current_principal : F)
    : F :=
  pymax
    (sub (sub current_principal
            (sub monthly_payment (mul current_principal monthly_rate)))
         prepayment_amount)
    (of_int 0).

(** The balance after [k] passes of the monthly policy. *)
Fixpoint balance_after {F} `{Num F}
    (monthly_payment monthly_rate prepayment_amount : F)
    (k : nat) (p : F) : F :=
  match k with
  | O => p
  | S k' =>
      balance_after monthly_payment monthly_rate prepayment_amount k'
        (monthly_balance monthly_payment monthly_rate prepayment_amount p)
  end.

(** The loop condition holds before each of the first [k] passes and after
    the last of them. *)
Fixpoint positive_for {F} `{Num F}
    (monthly_payment monthly_rate prepayment_amount : F)
    (k : nat) (p : F) : bool :=
  gtb p (of_int 0) &&
  match k with
  | O => true
  | S k' =>
      positive_for monthly_payment monthly_rate prepayment_amount k'
        (monthly_balance monthly_payment monthly_rate prepayment_amount p)
  end.

(** The state after [k] passes through the body. *)
Fixpoint run_months {F} `{Num F}
    (monthly_payment monthly_rate prepayment_amount : F)
    (prepayment_freq : string) (verbose : bool)
    (k : nat) (st : Loop.state F) : Loop.state F :=
  match k with
  | O => st
  | S k' =>
      run_months monthly_payment monthly_rate prepayment_amount
        prepayment_freq verbose k'
        (loop_body monthly_payment monthly_rate prepayment_amount
           prepayment_freq verbose st)
  end.

(** ** The caller, [main] *)

(** The payoff term as [main] shows it (line 124):
    [total_months // 12] years and [total_months % 12] months. *)
Definition years_and_months (total_months : Z) : Z * Z :=
  ((total_months / 12)%Z, (total_months mod 12)%Z).

(** The two columns of the data frame [main] draws its chart from (lines
    135-138): [[x['month'] for x in history]] and
    [[x['remaining_principal'] for x in history]]. *)
Definition chart_columns {F} (h : list (MonthRecord F)) : list Z * list F :=
  (map (@month F) h, map (@remaining_principal F) h).

(** ** More vocabulary *)

(** The dict returned when the loop body never runs. *)
Definition untouched_result {F} `{Num F} (original_total_interest : F)
    : Result F :=
  mkResult 0 (of_int 0) (sub original_total_interest (of_int 0)) [].

(** What a month of the monthly policy leaves: the record is numbered [m],
    carries the interest on the opening balance, and its balance is the
    opening balance less the scheduled principal and less
    [prepayment_amount], floored at zero. *)
Definition monthly_entry {F} `{Num F}
    (monthly_payment monthly_rate prepayment_amount : F)
    (m : Z) (opening : F) (r : MonthRecord F) : Prop :=
  month r = m /\
  monthly_interest r = mul opening monthly_rate /\
  remaining_principal r =
    monthly_balance monthly_payment monthly_rate prepayment_amount opening.

(** The months 1, 2, ..., [n]. *)
Definition months_up_to (n : nat) : list Z := map Z.of_nat (seq 1 n).

(** The ledger of a loop that is running or has just stopped: every balance
    recorded before the last one satisfied the loop condition, and the last
    one is the balance in hand. *)
Definition ledger_open {F} `{Num F} (opening : F) (st : Loop.state F)
    : Prop :=
  (Loop.history st = [] /\ Loop.current_principal st = opening) \/
  (exists h r,
     Loop.history st = h ++ [r] /\
     remaining_principal r = Loop.current_principal st /\
     gtb opening (of_int 0) = true /\
     Forall (fun x => gtb (remaining_principal x) (of_int 0) = true) h).


(** ** Vocabulary for binary64 *)

(** The sign classes of a binary64 number, read on its specification: a
    zero of either sign, a positive finite number or [+infinity]. *)
Definition sf_nonneg (x : spec_float) : bool :=
  match x with
  | S754_zero _ | S754_finite false _ _ | S754_infinity false => true
  | _ => false
  end.

(** A positive finite number or [+infinity]. *)
Definition sf_pos (x : spec_float) : bool :=
  match x with
  | S754_finite false _ _ | S754_infinity false => true
  | _ => false
  end.


(** A zero of either sign. *)
Definition sf_zero (x : spec_float) : bool :=
  match x with
  | S754_zero _ => true
  | _ => false
  end.

(** A zero or a finite number. *)
Definition sf_finite (x : spec_float) : bool :=
  match x with
  | S754_zero _ | S754_finite _ _ _ => true
  | _ => false
  end.

(** [x < 0] is false, as Python evaluates it: [x >= 0] holds, or [x] is a
    NaN. *)
Definition never_negative (x : float) : Prop :=
  PrimFloat.ltb x 0 = false /\
  (PrimFloat.leb 0 x = true \/ PrimFloat.is_nan x = true).

(** [x == 0] holds, or [x] is a NaN. *)
Definition zero_or_nan (x : float) : Prop :=
  PrimFloat.eqb x 0 = true \/ PrimFloat.is_nan x = true.


(** What a month of the schedule without prepayment leaves: the record is
    numbered [m], carries the interest on the opening balance, and its
    balance is the opening balance less the scheduled principal, floored at
    zero. *)
Definition unmodified_entry {F} `{Num F} (monthly_payment monthly_rate : F)
    (m : Z) (opening : F) (r : MonthRecord F) : Prop :=
  month r = m /\
  monthly_interest r = mul opening monthly_rate /\
  remaining_principal r =
    pymax (sub opening (sub monthly_payment (mul opening monthly_rate)))
          (of_int 0).



(** ** Facts about the loop that hold in every number system *)

Section LoopFacts.
Context {F : Type} {num : Num F}.
Variables (monthly_payment monthly_rate prepayment_amount : F).
Variable prepayment_freq : string.
Variable verbose : bool.

Local Abbreviation body :=
  (loop_body monthly_payment monthly_rate prepayment_amount
     prepayment_freq verbose).
Local Abbreviation guard := (@loop_guard F num).
Local Abbreviation loop :=
  (while_loop monthly_payment monthly_rate prepayment_amount
     prepayment_freq verbose).
Local Abbreviation after :=
  (run_months monthly_payment monthly_rate prepayment_amount
     prepayment_freq verbose).

Lemma while_loop_pass fuel st :
  guard st = true -> loop (S fuel) st = loop fuel (body st).
Proof. intros Hg. simpl. rewrite Hg. reflexivity. Qed.

Lemma while_loop_exit fuel st :
  guard st = false -> loop fuel st = Some st.
Proof. intros Hg. destruct fuel; simpl; rewrite Hg; reflexivity. Qed.

Lemma run_months_succ k st : after (S k) st = body (after k st).
Proof.
  revert st. induction k as [|k IH]; intros st; [reflexivity|].
  change (after (S (S k)) st) with (after (S k) (body st)).
  rewrite IH. reflexivity.
Qed.

(** The rule of the [while] loop: an invariant of the body holds, and the
    condition fails, in the state the loop returns. *)
Lemma while_loop_invariant (P : Loop.state F -> Prop) :
  (forall s, P s -> guard s = true -> P (body s)) ->
  forall fuel st st',
    P st -> loop fuel st = Some st' -> P st' /\ guard st' = false.
Proof.
  intros Hstep fuel. induction fuel as [|fuel IH]; intros st st' HP Hrun;
    simpl in Hrun; destruct (guard st) eqn:Hg; try discriminate.
  - injection Hrun as <-. auto.
  - eapply IH; [|exact Hrun]. auto.
  - injection Hrun as <-. auto.
Qed.

(** The loop returns exactly the first state, among those reached pass by
    pass, in which the condition fails. *)
Lemma while_loop_Some fuel st st' :
  loop fuel st = Some st' <->
  exists k, (k <= fuel)%nat /\ st' = after k st /\ guard st' = false /\
            forall j, (j < k)%nat -> guard (after j st) = true.
Proof.
  revert st. induction fuel as [|fuel IH]; intros st; simpl.
  - destruct (guard st) eqn:Hg; split.
    + discriminate.
    + intros (k & Hk & -> & Hg' & _). assert (k = O) by lia. subst k.
      simpl in Hg'. congruence.
    + intros [= <-]. exists O. repeat split; auto. intros j Hj; lia.
    + intros (k & Hk & -> & Hg' & Hlt). assert (k = O) by lia. now subst k.
  - destruct (guard st) eqn:Hg.
    + rewrite IH. split.
      * intros (k & Hk & -> & Hg' & Hlt). exists (S k).
        repeat split; auto; [lia|]. intros [|j] Hj; [exact Hg|].
        apply Hlt. lia.
      * intros (k & Hk & -> & Hg' & Hlt). destruct k as [|k].
        { simpl in Hg'. congruence. }
        exists k. repeat split; auto; [lia|]. intros j Hj.
        apply (Hlt (S j)). lia.
    + split.
      * intros [= <-]. exists O. repeat split; auto; [lia|]. intros j Hj; lia.
      * intros (k & Hk & -> & Hg' & Hlt). destruct k as [|k]; [reflexivity|].
        specialize (Hlt O ltac:(lia)). simpl in Hlt. congruence.
Qed.

Lemma while_loop_None fuel st :
  (forall j, (j <= fuel)%nat -> guard (after j st) = true) ->
  loop fuel st = None.
Proof.
  intros Hall. destruct (loop fuel st) as [st'|] eqn:Hrun; [|reflexivity].
  apply while_loop_Some in Hrun as (k & Hk & -> & Hg & _).
  rewrite Hall in Hg by exact Hk. discriminate.
Qed.

Lemma month_count_run_months k : forall st,
  Loop.month_count (after k st) = (Loop.month_count st + Z.of_nat k)%Z.
Proof.
  induction k as [|k IH]; intros st.
  - simpl. lia.
  - cbn [run_months]. rewrite IH. cbn [loop_body Loop.month_count]. lia.
Qed.

(** More fuel does not change a result. *)
Lemma while_loop_more_fuel fuel fuel' st st' :
  (fuel <= fuel')%nat -> loop fuel st = Some st' -> loop fuel' st = Some st'.
Proof.
  intros Hle Hrun. apply while_loop_Some in Hrun as (k & Hk & E & Hg & Hlt).
  apply while_loop_Some. exists k. repeat split; auto. lia.
Qed.
End LoopFacts.

(** ** The returned dict: months, interest total, savings (any number system) *)

Section ResultFacts.
Context {F : Type} {num : Num F}.
Variable nper : F -> F -> F -> F.

Lemma counters_agree_body pay rate prepay freq verbose st :
  counters_agree st ->
  counters_agree (loop_body pay rate prepay freq verbose st).
Proof.
  intros [Hm Hi]. split; cbn [loop_body Loop.month_count Loop.history
    Loop.total_interest].
  - rewrite length_app, Nat2Z.inj_add, Hm. reflexivity.
  - unfold sum_interest in *. rewrite map_app, fold_left_app, <- Hi.
    reflexivity.
Qed.

(** C9. Whenever [calculate_mortgage_savings] returns, [total_months] is the
    number of records in [history], [total_interest] is the sum (taken in
    order, from zero) of their [monthly_interest], and [interest_saved] is
    [monthly_payment * nper(...) - initial_principal], an expression of the
    inputs alone, minus [total_interest]. *)
Theorem result_fields_consistent
    fuel initial_principal monthly_payment annual_rate prepayment_amount
    prepayment_freq verbose res out :
  calculate_mortgage_savings nper fuel initial_principal monthly_payment
    annual_rate prepayment_amount prepayment_freq verbose = Some (res, out) ->
  total_months res = Z.of_nat (List.length (history res)) /\
  total_interest res = sum_interest (history res) /\
  interest_saved res =
    sub (sub (mul monthly_payment
                (nper (monthly_rate_of annual_rate) (neg monthly_payment)
                   initial_principal))
             initial_principal)
        (total_interest res).
Proof.
  unfold calculate_mortgage_savings. intros Hrun.
  destruct (while_loop _ _ _ _ _ _ _) as [st|] eqn:Hloop; [|discriminate].
  injection Hrun as <- <-. cbn [total_months total_interest interest_saved history].
  eapply while_loop_invariant with (P := counters_agree) in Hloop
    as [[Hm Hi] _].
  - repeat split; assumption.
  - intros s Hs _. apply counters_agree_body, Hs.
  - split; reflexivity.
Qed.
End ResultFacts.

(** ** The [verbose] flag *)

Section Verbose.
Context {F : Type} {num : Num F}.
Variable nper : F -> F -> F -> F.

Lemma silent_body pay rate prepay freq verbose st :
  silent (loop_body pay rate prepay freq verbose st) =
  loop_body pay rate prepay freq false (silent st).
Proof. reflexivity. Qed.

Lemma silent_while_loop pay rate prepay freq verbose fuel st :
  option_map silent (while_loop pay rate prepay freq verbose fuel st) =
  while_loop pay rate prepay freq false fuel (silent st).
Proof.
  revert st. induction fuel as [|fuel IH]; intros st; simpl;
    change (loop_guard (silent st)) with (loop_guard st);
    destruct (loop_guard st); try reflexivity.
  rewrite IH, silent_body. reflexivity.
Qed.

Lemma result_of_silent pay rate prepay freq verbose fuel pv :
  option_map fst
    (calculate_mortgage_savings nper fuel pv pay rate prepay freq verbose) =
  option_map
    (fun st =>
       mkResult (Loop.month_count st) (Loop.total_interest st)
         (sub (original_total_interest_of nper pv pay (monthly_rate_of rate))
              (Loop.total_interest st))
         (Loop.history st))
    (while_loop pay (monthly_rate_of rate) prepay freq false fuel
       (initial_state pv)).
Proof.
  unfold calculate_mortgage_savings.
  change (initial_state pv) with (silent (initial_state pv)) at 2.
  rewrite <- silent_while_loop with (verbose := verbose).
  destruct (while_loop _ _ _ _ verbose _ _) as [st|]; reflexivity.
Qed.

(** C10. The returned dict does not depend on [verbose]: with the same
    inputs, the call with [verbose = True] and the call with
    [verbose = False] return the same [total_months], [total_interest],
    [interest_saved] and [history] (and one returns exactly when the other
    does). *)
Theorem verbose_does_not_change_result
    fuel initial_principal monthly_payment annual_rate prepayment_amount
    prepayment_freq :
  option_map fst
    (calculate_mortgage_savings nper fuel initial_principal monthly_payment
       annual_rate prepayment_amount prepayment_freq true) =
  option_map fst
    (calculate_mortgage_savings nper fuel initial_principal monthly_payment
       annual_rate prepayment_amount prepayment_freq false).
Proof.
  rewrite result_of_silent with (verbose := true).
  rewrite result_of_silent with (verbose := false). reflexivity.
Qed.

(** What the flag does control: nothing is displayed without it, and with
    it one line per ledger entry. *)
Lemma written_when_verbose pay rate prepay freq (verbose : bool) fuel
    (st st' : Loop.state F) :
  Loop.written st = (if verbose then Loop.history st else []) ->
  while_loop pay rate prepay freq verbose fuel st = Some st' ->
  Loop.written st' = (if verbose then Loop.history st' else []).
Proof.
  intros H0 Hrun.
  eapply while_loop_invariant
    with (P := fun s : Loop.state F =>
            Loop.written s = if verbose then Loop.history s else [])
    in Hrun as [H _]; [exact H| |exact H0].
  intros s Hs _. cbn [loop_body Loop.written Loop.history].
  destruct verbose; [rewrite Hs|]; auto.
Qed.
End Verbose.

(** The interest a pass adds to the total. *)
Lemma total_interest_body {F} {num : Num F} pay rate prepay freq verbose
    (st : Loop.state F) :
  Loop.total_interest (loop_body pay rate prepay freq verbose st) =
  add (Loop.total_interest st) (mul (Loop.current_principal st) rate).
Proof. reflexivity. Qed.

(** ** The ledger, month by month (any number system) *)

Section Ledger.
Context {F : Type} {num : Num F}.

Lemma ledger_from_app (ok : Z -> F -> MonthRecord F -> Prop) h r :
  forall k opening,
    ledger_from ok k opening (h ++ [r]) <->
    ledger_from ok k opening h /\
    ok (k + Z.of_nat (List.length h) + 1)%Z (closing_balance opening h) r.
Proof.
  induction h as [|a h IH]; intros k opening; simpl.
  - rewrite Z.add_0_r. unfold closing_balance. simpl. tauto.
  - rewrite IH. unfold closing_balance. simpl fold_left.
    replace (k + 1 + Z.of_nat (List.length h) + 1)%Z
      with (k + Z.pos (Pos.of_succ_nat (List.length h)) + 1)%Z by lia.
    tauto.
Qed.

Lemma closing_balance_app (opening : F) h r :
  closing_balance opening (h ++ [r]) = remaining_principal r.
Proof. unfold closing_balance. rewrite fold_left_app. reflexivity. Qed.

Lemma ledger_from_weaken (ok ok' : Z -> F -> MonthRecord F -> Prop) h :
  (forall m o r, ok m o r -> ok' m o r) ->
  forall k opening, ledger_from ok k opening h -> ledger_from ok' k opening h.
Proof.
  intros Himp. induction h as [|a h IH]; intros k opening; simpl; [auto|].
  intros [H1 H2]. split; auto.
Qed.

Variables (monthly_payment monthly_rate prepayment_amount : F).
Variable prepayment_freq : string.
Variable verbose : bool.

Local Abbreviation body :=
  (loop_body monthly_payment monthly_rate prepayment_amount
     prepayment_freq verbose).
Local Abbreviation loop :=
  (while_loop monthly_payment monthly_rate prepayment_amount
     prepayment_freq verbose).

(** The record a pass appends. *)
Lemma history_body st :
  Loop.history (body st) =
  Loop.history st ++
    [mkMonth (Loop.month_count st + 1) (Loop.current_principal (body st))
       (mul (Loop.current_principal st) monthly_rate)].
Proof. reflexivity. Qed.

(** A property of each month, established under a side invariant [Q] of
    the locals, holds of the whole returned ledger. *)
Lemma ledger_of_loop (Q : Loop.state F -> Prop)
    (ok : Z -> F -> MonthRecord F -> Prop) opening :
  (forall s, Q s -> loop_guard s = true -> Q (body s)) ->
  (forall s, Q s -> loop_guard s = true ->
     ok (Loop.month_count s + 1)%Z (Loop.current_principal s)
        (mkMonth (Loop.month_count s + 1) (Loop.current_principal (body s))
           (mul (Loop.current_principal s) monthly_rate))) ->
  forall fuel st',
    Q (initial_state opening) ->
    loop fuel (initial_state opening) = Some st' ->
    Q st' /\ ledger_inv ok opening st'.
Proof.
  intros HQ Hok fuel st' HQ0 Hrun.
  eapply while_loop_invariant
    with (P := fun s => Q s /\ ledger_inv ok opening s) in Hrun
    as [H _]; [exact H| |].
  - intros s [Hq (Hl & Hc & Hm)] Hg. split; [auto|].
    unfold ledger_inv. rewrite history_body, closing_balance_app.
    rewrite ledger_from_app, length_app, Nat2Z.inj_add.
    cbn [remaining_principal List.length]. rewrite <- Hc, Z.add_0_l, <- Hm.
    repeat split; auto.
  - split; [exact HQ0|]. repeat split.
Qed.
End Ledger.

(** ** The yearly policy (any number system) *)

Section Yearly.
Context {F : Type} {num : Num F}.
Variable nper : F -> F -> F -> F.

Lemma apply_prepayment_yearly (prepay : F) m pm x :
  apply_prepayment prepay "yearly" m pm x =
  if ((m - pm) mod 12 =? 0)%Z then (sub x prepay, m) else (x, pm).
Proof. reflexivity. Qed.

(** Counted from a multiple of 12, a month is due exactly when it is a
    multiple of 12 itself. *)
Lemma due_from_multiple m q :
  ((m - 12 * q) mod 12 =? 0)%Z = (m mod 12 =? 0)%Z.
Proof.
  replace (m - 12 * q)%Z with (m + (- q) * 12)%Z by lia.
  rewrite Z.mod_add by lia. reflexivity.
Qed.

Lemma yearly_counter_body pay rate prepay verbose (st : Loop.state F) :
  yearly_counter st ->
  yearly_counter (loop_body pay rate prepay "yearly" verbose st).
Proof.
  intros [Hpos Hpm]. unfold yearly_counter.
  cbn [loop_body Loop.month_count Loop.prepayment_month].
  rewrite apply_prepayment_yearly, Hpm, due_from_multiple.
  split; [lia|].
  destruct (Z.eqb_spec ((Loop.month_count st + 1) mod 12) 0) as [E|E];
    cbn [snd]; Z.div_mod_to_equations; lia.
Qed.

(** The branch taken by the pass of month [m = month_count + 1]. *)
Lemma yearly_branch prepay (st : Loop.state F) x :
  yearly_counter st ->
  let m := (Loop.month_count st + 1)%Z in
  fst (apply_prepayment prepay "yearly" m (Loop.prepayment_month st) x) =
  if (m mod 12 =? 0)%Z then sub x prepay else x.
Proof.
  intros [_ Hpm] m. rewrite apply_prepayment_yearly, Hpm, due_from_multiple.
  destruct (m mod 12 =? 0)%Z; reflexivity.
Qed.

(** C4. With [prepayment_freq = 'yearly'], the returned ledger numbers its
    months 1, 2, 3, ... and [prepayment_amount] is subtracted from the
    balance in month [m] exactly when [m] is a multiple of 12 (months 12,
    24, 36, ...): in every other month the balance is only reduced by the
    scheduled principal. *)
Theorem yearly_prepayment_cadence
    fuel initial_principal monthly_payment annual_rate prepayment_amount
    verbose res out :
  calculate_mortgage_savings nper fuel initial_principal monthly_payment
    annual_rate prepayment_amount "yearly" verbose = Some (res, out) ->
  ledger_from
    (yearly_entry monthly_payment (monthly_rate_of annual_rate)
       prepayment_amount)
    0 initial_principal (history res).
Proof.
  unfold calculate_mortgage_savings. intros Hrun.
  destruct (while_loop _ _ _ _ _ _ _) as [st|] eqn:Hloop; [|discriminate].
  injection Hrun as <- <-. cbn [history].
  eapply ledger_of_loop with (Q := @yearly_counter F) in Hloop
    as [_ [H _]]; [exact H| | |].
  - intros s Hs _. apply yearly_counter_body, Hs.
  - intros s Hs _. split; [reflexivity|].
    cbn [remaining_principal loop_body Loop.current_principal].
    rewrite yearly_branch by exact Hs. reflexivity.
  - split; [cbn; lia|reflexivity].
Qed.
End Yearly.

(** In every number system the recorded interest of a month is the product
    of its opening balance and [monthly_rate]. *)
Lemma interest_is_on_opening_balance {F} {num : Num F}
    (nper : F -> F -> F -> F) fuel pv pay annual prepay freq verbose
    res out :
  calculate_mortgage_savings nper fuel pv pay annual prepay freq verbose
    = Some (res, out) ->
  ledger_from (interest_entry (monthly_rate_of annual)) 0 pv (history res).
Proof.
  unfold calculate_mortgage_savings. intros Hrun.
  destruct (while_loop _ _ _ _ _ _ _) as [st|] eqn:Hloop; [|discriminate].
  injection Hrun as <- <-. cbn [history].
  eapply ledger_of_loop with (Q := fun _ => True) in Hloop
    as [_ [H _]]; [exact H| | |]; auto.
  intros s _ _. reflexivity.
Qed.

(** ** The balance under the monthly policy (any number system) *)

Section MonthlyBalance.
Context {F : Type} {num : Num F}.
Variables (pay rate prepay : F).
Variable verbose : bool.

Lemma current_principal_monthly (st : Loop.state F) :
  Loop.current_principal (loop_body pay rate prepay "monthly" verbose st) =
  monthly_balance pay rate prepay (Loop.current_principal st).
Proof. reflexivity. Qed.

Lemma current_principal_run_months k : forall st : Loop.state F,
  Loop.current_principal (run_months pay rate prepay "monthly" verbose k st) =
  balance_after pay rate prepay k (Loop.current_principal st).
Proof.
  induction k as [|k IH]; intros st; [reflexivity|].
  cbn [run_months balance_after]. rewrite IH, current_principal_monthly.
  reflexivity.
Qed.

Lemma balance_after_add j k p :
  balance_after pay rate prepay (j + k) p =
  balance_after pay rate prepay k (balance_after pay rate prepay j p).
Proof.
  revert p. induction j as [|j IH]; intros p; [reflexivity|].
  cbn [Nat.add balance_after]. apply IH.
Qed.

Lemma positive_for_spec k : forall p j,
  positive_for pay rate prepay k p = true -> (j <= k)%nat ->
  gtb (balance_after pay rate prepay j p) (of_int 0) = true.
Proof.
  induction k as [|k IH]; intros p j H Hj; cbn [positive_for] in H;
    apply andb_prop in H as [H1 H2].
  - assert (j = O) by lia. subst j. exact H1.
  - destruct j as [|j]; [exact H1|]. cbn [balance_after]. apply IH; [exact H2|lia].
Qed.

(** A balance that the body maps to itself is reached for good. *)
Lemma balance_after_fixed k p :
  monthly_balance pay rate prepay p = p -> balance_after pay rate prepay k p = p.
Proof.
  intros Hfix. induction k as [|k IH]; [reflexivity|].
  cbn [balance_after]. rewrite Hfix. exact IH.
Qed.

(** If the balance stays positive for [k] passes and then sits at a positive
    fixed point of the body, the loop is still running after any number of
    passes. *)
Lemma monthly_loop_runs_forever k p fuel (st : Loop.state F) :
  Loop.current_principal st = p ->
  positive_for pay rate prepay k p = true ->
  monthly_balance pay rate prepay (balance_after pay rate prepay k p) =
    balance_after pay rate prepay k p ->
  while_loop pay rate prepay "monthly" verbose fuel st = None.
Proof.
  intros Hp Hpos Hfix. apply while_loop_None. intros j _.
  unfold loop_guard. rewrite current_principal_run_months, Hp.
  destruct (Nat.le_gt_cases j k) as [Hle|Hgt].
  - eapply positive_for_spec; eauto.
  - replace j with (k + (j - k))%nat by lia.
    rewrite balance_after_add, balance_after_fixed by exact Hfix.
    eapply positive_for_spec; eauto.
Qed.
End MonthlyBalance.

(** ** When the call returns (any number system) *)

Section Returning.
Context {F : Type} {num : Num F}.
Variables (pay rate prepay : F).
Variable freq : string.
Variable verbose : bool.

Local Abbreviation body := (loop_body pay rate prepay freq verbose).
Local Abbreviation after := (run_months pay rate prepay freq verbose).

(** Whatever the policy, a pass either takes the prepayment off or does
    not. *)
Lemma apply_prepayment_cases m pm (x : F) :
  fst (apply_prepayment prepay freq m pm x) = x \/
  fst (apply_prepayment prepay freq m pm x) = sub x prepay.
Proof.
  unfold apply_prepayment.
  destruct (String.eqb freq "monthly"); [right; reflexivity|].
  destruct (String.eqb freq "yearly"); [|left; reflexivity].
  destruct (_ =? 0)%Z; [right|left]; reflexivity.
Qed.





End Returning.

Section ReturningClaims.
Context {F : Type} {num : Num F}.
Variable nper : F -> F -> F -> F.



End ReturningClaims.


(** ** Signs and zeros in binary64 *)

(** The facts below are read off the specification of the binary64
    operations ([SpecFloat]), to which the primitive operations are tied by
    [FloatAxioms]. *)

Section Binary64.

Lemma Prim2SF_zero : Prim2SF 0 = S754_zero false.
Proof. reflexivity. Qed.

Lemma of_int_zero : of_int 0 = 0%float.
Proof. reflexivity. Qed.

(** *** Comparisons with zero and with infinity *)

Lemma ltb_zero_pos x : PrimFloat.ltb 0 x = sf_pos (Prim2SF x).
Proof.
  rewrite ltb_spec, Prim2SF_zero.
  destruct (Prim2SF x) as [s|[]| |[] m e]; reflexivity.
Qed.

Lemma leb_zero_nonneg x : PrimFloat.leb 0 x = sf_nonneg (Prim2SF x).
Proof.
  rewrite leb_spec, Prim2SF_zero.
  destruct (Prim2SF x) as [s|[]| |[] m e]; reflexivity.
Qed.

Lemma eqb_zero x : PrimFloat.eqb x 0 = sf_zero (Prim2SF x).
Proof.
  rewrite eqb_spec, Prim2SF_zero.
  destruct (Prim2SF x) as [s|[]| |[] m e]; reflexivity.
Qed.


Lemma ltb_zero_false_inv x :
  PrimFloat.ltb x 0 = false ->
  sf_nonneg (Prim2SF x) = true \/ Prim2SF x = S754_nan.
Proof.
  rewrite ltb_spec, Prim2SF_zero.
  destruct (Prim2SF x) as [s|[]| |[] m e]; intros H;
    try discriminate; auto.
Qed.

Lemma SFcompare_refl x :
  x <> S754_nan -> SFcompare x x = Some Eq.
Proof.
  destruct x as [s|[]| |[] m e]; intros H; try reflexivity;
    try contradiction; cbn [SFcompare];
    rewrite Z.compare_refl, Pos.compare_cont_refl; reflexivity.
Qed.

Lemma is_nan_spec x : PrimFloat.is_nan x = true <-> Prim2SF x = S754_nan.
Proof.
  unfold PrimFloat.is_nan. rewrite eqb_spec. unfold SFeqb. split.
  - intros H. destruct (Prim2SF x) as [s|s| |s m e] eqn:E; [| |reflexivity|];
      rewrite SFcompare_refl in H by discriminate; discriminate.
  - intros ->. reflexivity.
Qed.

Lemma ltb_infinity_finite x :
  sf_pos (Prim2SF x) = true -> PrimFloat.ltb x infinity = true ->
  sf_finite (Prim2SF x) = true.
Proof.
  rewrite ltb_spec. change (Prim2SF infinity) with (S754_infinity false).
  destruct (Prim2SF x) as [s|[]| |[] m e]; intros H1 H2;
    try discriminate; reflexivity.
Qed.

(** *** Rounding keeps the sign *)








(** *** Products and quotients of numbers that are not negative *)






(** *** Subtracting zero *)

Lemma sub_zero x : (x - 0)%float = x.
Proof.
  apply Prim2SF_inj. rewrite sub_spec, Prim2SF_zero.
  destruct (Prim2SF x) as [[]|[]| |[] m e]; reflexivity.
Qed.

(** *** Products with a zero *)

Lemma SFmul_finite_zero x y :
  sf_finite x = true -> sf_zero y = true -> sf_zero (SF64mul x y) = true.
Proof.
  destruct x as [sx|sx| |sx mx ex]; try discriminate;
  destruct y as [sy|sy| |sy my ey]; try discriminate; reflexivity.
Qed.

Lemma SFsub_zeros x y :
  sf_zero x = true -> sf_zero y = true -> sf_zero (SF64sub x y) = true.
Proof.
  destruct x as [[]|sx| |sx mx ex]; try discriminate;
  destruct y as [[]|sy| |sy my ey]; try discriminate; reflexivity.
Qed.

End Binary64.


(** ** The loop in binary64 *)

Section Binary64Loop.
Variable nper : float -> float -> float -> float.



(** With [prepayment_amount = 0] neither branch of the [if]/[elif] changes
    the balance. *)
Lemma apply_prepayment_zero freq m pm (x : float) :
  fst (apply_prepayment 0%float freq m pm x) = x.
Proof.
  destruct (@apply_prepayment_cases float _ 0%float freq m pm x) as [E|E];
    rewrite E; [reflexivity|]. apply sub_zero.
Qed.

(** C6, as amended.  In binary64, with [prepayment_amount = 0] and whatever
    the frequency, the loop runs the schedule without prepayment: the
    months are numbered 1, 2, 3, ..., each carries the interest on its
    opening balance and leaves that balance less the scheduled principal,
    floored at zero; [total_months] is the number of these months and
    [total_interest] the sum of their interests, taken in order. *)
Theorem zero_prepayment_runs_unmodified_schedule
    fuel initial_principal monthly_payment annual_rate prepayment_freq
    verbose res out :
  calculate_mortgage_savings nper fuel initial_principal monthly_payment
    annual_rate 0%float prepayment_freq verbose = Some (res, out) ->
  ledger_from
    (unmodified_entry monthly_payment (monthly_rate_of annual_rate))
    0 initial_principal (history res) /\
  total_months res = Z.of_nat (List.length (history res)) /\
  total_interest res = sum_interest (history res).
Proof.
  unfold calculate_mortgage_savings. intros Hrun.
  destruct (while_loop _ _ _ _ _ _ _) as [st|] eqn:Hloop; [|discriminate].
  injection Hrun as <- <-. cbn [history total_months total_interest].
  eapply ledger_of_loop with (Q := @counters_agree float _) in Hloop
    as [[Hm Hi] [H _]].
  - split; [exact H|split; assumption].
  - intros s Hs _. apply counters_agree_body, Hs.
  - intros s _ _. split; [reflexivity|]. split; [reflexivity|].
    cbn [remaining_principal loop_body Loop.current_principal].
    rewrite apply_prepayment_zero. reflexivity.
  - split; reflexivity.
Qed.

(** C7, as amended.  In binary64, with [initial_principal = 0] (either zero)
    and a positive finite payment, the call returns at once, whatever
    number of passes it is allowed: [total_months = 0],
    [total_interest = 0.0], an empty [history], nothing displayed.
    [interest_saved] is [monthly_payment * nper(...) - initial_principal
    - 0.0]: it is a zero whenever the library returns a zero for the
    payoff period. *)
Theorem zero_principal_returns_at_once
    fuel initial_principal monthly_payment annual_rate prepayment_amount
    prepayment_freq verbose :
  PrimFloat.eqb initial_principal 0 = true ->
  PrimFloat.ltb 0 monthly_payment = true ->
  PrimFloat.ltb monthly_payment infinity = true ->
  PrimFloat.eqb
    (nper (monthly_rate_of annual_rate) (- monthly_payment)%float
       initial_principal) 0 = true ->
  exists saved,
    calculate_mortgage_savings nper fuel initial_principal monthly_payment
      annual_rate prepayment_amount prepayment_freq verbose
    = Some (mkResult 0%Z 0%float saved [], []) /\
    PrimFloat.eqb saved 0 = true.
Proof.
  rewrite !eqb_zero, ltb_zero_pos. intros Hpv Hpay Hfin Hn.
  pose proof (@ltb_infinity_finite _ Hpay Hfin) as Hpayf.
  unfold calculate_mortgage_savings.
  rewrite while_loop_exit.
  - eexists. split; [reflexivity|].
    cbn [Loop.total_interest initial_state].
    unfold original_total_interest_of. cbn [sub mul neg float_Num].
    rewrite eqb_zero, !sub_spec, mul_spec, of_int_zero, Prim2SF_zero.
    apply SFsub_zeros; [|reflexivity].
    apply SFsub_zeros; [|exact Hpv].
    apply SFmul_finite_zero; assumption.
  - unfold loop_guard. cbn [gtb float_Num initial_state Loop.current_principal].
    rewrite of_int_zero, ltb_zero_pos.
    destruct (Prim2SF initial_principal) as [s|s| |s m e];
      try discriminate; reflexivity.
Qed.

End Binary64Loop.

(** ** Runs in binary64 *)



(** In binary64 the loop need not return even when the payment exceeds the
    interest: at principal = 1e20, payment = 1, rate 0, the payment is
    absorbed by rounding and the balance never moves. *)
Lemma binary64_absorption_hangs :
  PrimFloat.ltb (1e20 * monthly_rate_of 0)%float 1 = true /\
  ~ exists nper fuel res out,
      calculate_mortgage_savings nper fuel 1e20%float 1%float 0%float
        0%float "monthly" false = Some (res, out).
Proof.
  split; [vm_compute; reflexivity|].
  intros (nper & fuel & res & out & H).
  unfold calculate_mortgage_savings in H.
  rewrite (@monthly_loop_runs_forever float _ _ _ _ false O 1e20%float) in H.
  - discriminate.
  - reflexivity.
  - vm_compute. reflexivity.
  - vm_compute. reflexivity.
Qed.

(** The scenario of the specification: principal = 1,124,778.57, payment =
    6,251.26, annual rate = 3.3%.  With 1,000 prepaid every month the loan
    is retired in 203 months and the last recorded balance is zero; with no
    prepayment it takes 249 months, and [verbose] displays one line per
    month. *)
Lemma binary64_specification_scenario (nper : float -> float -> float -> float) :
  option_map
    (fun r => (total_months (fst r),
               option_map (@remaining_principal float)
                 (nth_error (history (fst r)) 202),
               List.length (snd r)))
    (calculate_mortgage_savings nper 300 1124778.57%float 6251.26%float
       3.3%float 1000%float "monthly" false)
  = Some (203%Z, Some 0%float, O) /\
  option_map
    (fun r => (total_months (fst r), List.length (snd r)))
    (calculate_mortgage_savings nper 300 1124778.57%float 6251.26%float
       3.3%float 0%float "monthly" true)
  = Some (249%Z, 249%nat).
Proof. split; vm_compute; reflexivity. Qed.

(** The loan of the counterexamples to C5 and C6 below: two months, with
    or without the prepayment, whatever [nper] returns. *)
Lemma binary64_two_month_runs (nper : float -> float -> float -> float) :
  option_map (fun r => (total_months (fst r), total_interest (fst r)))
    (calculate_mortgage_savings nper 2 2%float 3%float 1200%float
       0.125%float "monthly" false)
  = Some (2%Z, 2.875%float) /\
  option_map (fun r => (total_months (fst r), total_interest (fst r)))
    (calculate_mortgage_savings nper 2 2%float 3%float 1200%float
       0%float "monthly" false)
  = Some (2%Z, 3%float).
Proof. split; vm_compute; reflexivity. Qed.

(** Rounding can carry the computed interest above a payment that exceeds
    the exact one: at principal = 18,816, payment = 27,251.84, annual rate =
    1738%, the product [initial_principal * monthly_rate] evaluates to
    27251.840000000004, the scheduled principal is negative, and the
    recorded balances rise until the yearly prepayment of month 12 clears
    the loan. *)
Lemma binary64_interest_rounds_above_payment
    (nper : float -> float -> float -> float) :
  PrimFloat.ltb 27251.84 (18816 * monthly_rate_of 1738)%float = true /\
  option_map
    (fun r => (total_months (fst r),
               firstn 2 (balances (history (fst r))),
               option_map (@remaining_principal float)
                 (nth_error (history (fst r)) 11)))
    (calculate_mortgage_savings nper 12 18816%float 27251.84%float
       1738%float 100000%float "yearly" false)
  = Some (12%Z, [18816.000000000004%float; 18816.000000000011%float],
          Some 0%float).
Proof. split; vm_compute; reflexivity. Qed.

(** At a zero rate the library's zero-rate path gives a negative payoff
    period: an interest-free loan of 1,300 repaid by 100 a month is
    retired in 13 months (9 with 50 prepaid every month), while
    [nper] is -13 and the baseline interest -2600. *)
Lemma binary64_interest_free_loan :
  nper_zero_rate (monthly_rate_of 0%float) (-100)%float 1300%float
    = (-13)%float /\
  option_map
    (fun r => (total_months (fst r), total_interest (fst r),
               interest_saved (fst r)))
    (calculate_mortgage_savings nper_zero_rate 20 1300%float 100%float
       0%float 0%float "monthly" false)
  = Some (13%Z, 0%float, (-2600)%float) /\
  option_map
    (fun r => (total_months (fst r), total_interest (fst r),
               interest_saved (fst r)))
    (calculate_mortgage_savings nper_zero_rate 20 1300%float 100%float
       0%float 50%float "monthly" false)
  = Some (9%Z, 0%float, (-2600)%float).
Proof. repeat split; vm_compute; reflexivity. Qed.

(** ** Counterexamples in binary64 *)


(** C6, counterexample. The same loan with [prepayment_amount = 0]: the
    loop accumulates a total interest of exactly 3 (2 in the first month, 1
    in the second), while the analytic baseline
    [monthly_payment * nper - initial_principal] is 2.7548875021634691:
    the two differ by more than 0.2, far from a rounding error. *)
Lemma zero_prepayment_interest_above_baseline :
  PrimFloat.ltb (2 * monthly_rate_of 1200)%float 3 = true /\
  exists res baseline,
    total_interest res = 3%float /\
    baseline = 2.7548875021634691%float /\
    PrimFloat.ltb 0.2 (total_interest res - baseline)%float = true /\
    forall log,
      log 2%float = 0.6931471805599453%float ->
      log 3%float = 1.0986122886681098%float ->
      calculate_mortgage_savings (npf_nper log) 2 2%float 3%float
        1200%float 0%float "monthly" false = Some (res, []) /\
      original_total_interest_of (npf_nper log) 2%float 3%float
        (monthly_rate_of 1200%float) = baseline.
Proof.
  split; [vm_compute; reflexivity|].
  exists (mkResult 2 3%float (-0.24511249783653088)%float
            [mkMonth 1 1%float 2%float; mkMonth 2 0%float 1%float]).
  exists 2.7548875021634691%float.
  split; [reflexivity|]. split; [reflexivity|].
  split; [vm_compute; reflexivity|].
  intros log H2 H3.
  assert (Hn : npf_nper log (monthly_rate_of 1200%float) (-3)%float 2%float
               = 1.5849625007211563%float).
  { vm_compute. rewrite H2, H3. vm_compute. reflexivity. }
  split.
  - unfold calculate_mortgage_savings, original_total_interest_of.
    change (neg 3%float) with (-3)%float. rewrite Hn.
    vm_compute. reflexivity.
  - unfold original_total_interest_of.
    change (neg 3%float) with (-3)%float. rewrite Hn.
    vm_compute. reflexivity.
Qed.

(** C7, counterexample. initial_principal = 0, payment = 6,251.26, annual
    rate = 1e-15 (valid: it is not negative): [1 + monthly_rate] rounds to
    1, so the library divides [log 1] by [log 1], and the call returns
    [interest_saved = nan], which is not zero. *)
Lemma zero_principal_with_nan_saving :
  PrimFloat.leb 0 1e-15 = true /\
  PrimFloat.ltb 0 6251.26 = true /\
  exists res,
    total_months res = 0%Z /\
    PrimFloat.eqb (interest_saved res) 0 = false /\
    PrimFloat.is_nan (interest_saved res) = true /\
    forall log,
      log 1%float = 0%float ->
      calculate_mortgage_savings (npf_nper log) 0 0%float 6251.26%float
        1e-15%float 1000%float "monthly" false = Some (res, []).
Proof.
  split; [vm_compute; reflexivity|]. split; [vm_compute; reflexivity|].
  exists (mkResult 0 0%float nan []).
  split; [reflexivity|]. split; [vm_compute; reflexivity|].
  split; [vm_compute; reflexivity|].
  intros log H1.
  assert (Hn : npf_nper log (monthly_rate_of 1e-15%float)
                 (- 6251.26)%float 0%float = nan).
  { vm_compute. rewrite H1. vm_compute. reflexivity. }
  unfold calculate_mortgage_savings, original_total_interest_of.
  change (neg 6251.26%float) with (- 6251.26)%float. rewrite Hn.
  vm_compute. reflexivity.
Qed.

(** ** Instances of the theorems above *)

Lemma result_fields_consistent_witness :
  exists res out,
    calculate_mortgage_savings nper_zero_rate 10 100%float 30%float 0%float
      1%float "monthly" true = Some (res, out) /\
    total_months res = 4%Z /\
    (total_months res = Z.of_nat (List.length (history res)) /\
     total_interest res = sum_interest (history res) /\
     interest_saved res =
       sub (sub (mul 30%float
                   (nper_zero_rate (monthly_rate_of 0%float) (neg 30%float)
                      100%float))
                100%float)
           (total_interest res)).
Proof.
  eexists. eexists. split; [vm_compute; reflexivity|].
  split; [reflexivity|].
  eapply (@result_fields_consistent float _ nper_zero_rate 10 100%float
            30%float 0%float 1%float "monthly" true).
  vm_compute. reflexivity.
Defined.

Lemma yearly_prepayment_cadence_witness :
  exists res out,
    calculate_mortgage_savings nper_zero_rate 20 1300%float 100%float
      0%float 50%float "yearly" false = Some (res, out) /\
    total_months res = 13%Z /\
    option_map (@remaining_principal float) (nth_error (history res) 10)
      = Some 200%float /\
    option_map (@remaining_principal float) (nth_error (history res) 11)
      = Some 50%float /\
    ledger_from (yearly_entry 100%float (monthly_rate_of 0%float) 50%float)
      0 1300%float (history res).
Proof.
  eexists. eexists. split; [vm_compute; reflexivity|].
  split; [reflexivity|]. split; [reflexivity|]. split; [reflexivity|].
  eapply (@yearly_prepayment_cadence float _ nper_zero_rate 20 1300%float
            100%float 0%float 50%float false).
  vm_compute. reflexivity.
Defined.




Lemma zero_prepayment_runs_unmodified_schedule_witness :
  exists res out,
    calculate_mortgage_savings nper_zero_rate 5 100%float 60%float 12%float
      0%float "yearly" false = Some (res, out) /\
    total_months res = 2%Z /\
    (ledger_from (unmodified_entry 60%float (monthly_rate_of 12%float))
       0 100%float (history res) /\
     total_months res = Z.of_nat (List.length (history res)) /\
     total_interest res = sum_interest (history res)).
Proof.
  eexists. eexists. split; [vm_compute; reflexivity|].
  split; [reflexivity|].
  eapply (@zero_prepayment_runs_unmodified_schedule nper_zero_rate 5
           100%float 60%float 12%float "yearly" false).
  vm_compute. reflexivity.
Defined.

Lemma zero_principal_returns_at_once_witness :
  exists saved,
    calculate_mortgage_savings nper_zero_rate 0 0%float 6251.26%float
      0%float 1000%float "monthly" true
    = Some (mkResult 0%Z 0%float saved [], []) /\
    PrimFloat.eqb saved 0 = true.
Proof.
  apply (@zero_principal_returns_at_once nper_zero_rate 0 0%float
           6251.26%float 0%float 1000%float "monthly" true);
    vm_compute; reflexivity.
Defined.

(** * Further properties of the function and of its caller *)

(** ** In every number system *)

Section MoreLoopFacts.
Context {F : Type} {num : Num F}.
Variable nper : F -> F -> F -> F.

(** X1. A principal that does not satisfy [current_principal > 0] (zero,
    negative, or a NaN in binary64) is not rejected: the body never runs and
    the call returns at once, whatever the other arguments, with
    [total_months = 0], [total_interest = 0.0], an empty [history], nothing
    displayed, and [interest_saved = original_total_interest - 0.0]. *)
Theorem non_positive_principal_returns_untouched
    fuel initial_principal monthly_payment annual_rate prepayment_amount
    prepayment_freq verbose :
  gtb initial_principal (of_int 0) = false ->
  calculate_mortgage_savings nper fuel initial_principal monthly_payment
    annual_rate prepayment_amount prepayment_freq verbose
  = Some (untouched_result
            (original_total_interest_of nper initial_principal
               monthly_payment (monthly_rate_of annual_rate)),
          []).
Proof.
  intros Hg. unfold calculate_mortgage_savings.
  rewrite while_loop_exit by exact Hg. reflexivity.
Qed.

Lemma apply_prepayment_other (prepay : F) freq m pm x :
  freq <> "monthly"%string -> freq <> "yearly"%string ->
  apply_prepayment prepay freq m pm x = (x, pm).
Proof.
  intros Hm Hy. unfold apply_prepayment.
  apply String.eqb_neq in Hm, Hy. rewrite Hm, Hy. reflexivity.
Qed.

Lemma loop_body_other pay rate (a b : F) freq verbose st :
  freq <> "monthly"%string -> freq <> "yearly"%string ->
  loop_body pay rate a freq verbose st = loop_body pay rate b freq verbose st.
Proof.
  intros Hm Hy. unfold loop_body.
  rewrite !(apply_prepayment_other _ _ _ _ Hm Hy). reflexivity.
Qed.

Lemma while_loop_other pay rate (a b : F) freq verbose fuel :
  freq <> "monthly"%string -> freq <> "yearly"%string ->
  forall st,
    while_loop pay rate a freq verbose fuel st =
    while_loop pay rate b freq verbose fuel st.
Proof.
  intros Hm Hy. induction fuel as [|fuel IH]; intros st; simpl;
    destruct (loop_guard st); try reflexivity.
  rewrite IH, (loop_body_other pay rate a b verbose st Hm Hy). reflexivity.
Qed.

(** X2. A [prepayment_freq] that is neither ['monthly'] nor ['yearly'] is
    not rejected either: no prepayment is ever applied, so the call returns
    the same whatever [prepayment_amount] is. *)
Theorem unknown_frequency_ignores_prepayment
    fuel initial_principal monthly_payment annual_rate
    (amount amount' : F) prepayment_freq verbose :
  prepayment_freq <> "monthly"%string ->
  prepayment_freq <> "yearly"%string ->
  calculate_mortgage_savings nper fuel initial_principal monthly_payment
    annual_rate amount prepayment_freq verbose
  = calculate_mortgage_savings nper fuel initial_principal monthly_payment
      annual_rate amount' prepayment_freq verbose.
Proof.
  intros Hm Hy. unfold calculate_mortgage_savings.
  rewrite (while_loop_other monthly_payment (monthly_rate_of annual_rate)
             amount amount' verbose fuel Hm Hy).
  reflexivity.
Qed.

(** X3. With [prepayment_freq = 'monthly'], the returned ledger numbers its
    months 1, 2, 3, ..., each record carries the interest on the balance the
    month starts from, and [prepayment_amount] is subtracted in every
    month, the first included, before the floor at zero. *)
Theorem monthly_prepayment_every_month
    fuel initial_principal monthly_payment annual_rate prepayment_amount
    verbose res out :
  calculate_mortgage_savings nper fuel initial_principal monthly_payment
    annual_rate prepayment_amount "monthly" verbose = Some (res, out) ->
  ledger_from
    (monthly_entry monthly_payment (monthly_rate_of annual_rate)
       prepayment_amount)
    0 initial_principal (history res).
Proof.
  unfold calculate_mortgage_savings. intros Hrun.
  destruct (while_loop _ _ _ _ _ _ _) as [st|] eqn:Hloop; [|discriminate].
  injection Hrun as <- <-. cbn [history].
  eapply ledger_of_loop with (Q := fun _ => True) in Hloop
    as [_ [H _]]; [exact H| | |]; auto.
  intros s _ _. repeat split.
Qed.

Lemma months_up_to_succ n :
  months_up_to (S n) = months_up_to n ++ [(Z.of_nat n + 1)%Z].
Proof.
  unfold months_up_to. rewrite seq_S, map_app. cbn [map].
  do 2 f_equal. lia.
Qed.

(** X4. The chart [main] draws has one point per month of the term: the
    month column is 1, 2, ..., [total_months], without gap or repetition,
    whatever the policy, and the balance column has as many rows. *)
Theorem chart_has_one_point_per_month
    fuel initial_principal monthly_payment annual_rate prepayment_amount
    prepayment_freq verbose res out :
  calculate_mortgage_savings nper fuel initial_principal monthly_payment
    annual_rate prepayment_amount prepayment_freq verbose = Some (res, out) ->
  fst (chart_columns (history res))
    = months_up_to (Z.to_nat (total_months res)) /\
  List.length (snd (chart_columns (history res)))
    = Z.to_nat (total_months res).
Proof.
  unfold calculate_mortgage_savings. intros Hrun.
  destruct (while_loop _ _ _ _ _ _ _) as [st|] eqn:Hloop; [|discriminate].
  injection Hrun as <- <-. cbn [history total_months chart_columns fst snd].
  eapply while_loop_invariant
    with (P := fun s =>
            Loop.month_count s = Z.of_nat (List.length (Loop.history s)) /\
            map (@month F) (Loop.history s)
              = months_up_to (List.length (Loop.history s)))
    in Hloop as [[Hm Hh] _].
  - rewrite Hm, Nat2Z.id, length_map. split; [exact Hh|reflexivity].
  - intros s [Hm Hh] _. rewrite history_body, length_app, map_app, Hh.
    cbn [List.length map month loop_body Loop.month_count].
    rewrite Nat.add_1_r, months_up_to_succ, Hm. split; [lia|reflexivity].
  - split; reflexivity.
Qed.

(** X5. What [verbose] displays: with the flag, one line per record of the
    returned [history], in the same order and with the same figures;
    without it, nothing. *)
Theorem displayed_lines_are_the_history
    fuel initial_principal monthly_payment annual_rate prepayment_amount
    prepayment_freq (verbose : bool) res out :
  calculate_mortgage_savings nper fuel initial_principal monthly_payment
    annual_rate prepayment_amount prepayment_freq verbose = Some (res, out) ->
  out = if verbose then history res else [].
Proof.
  unfold calculate_mortgage_savings. intros Hrun.
  destruct (while_loop _ _ _ _ _ _ _) as [st|] eqn:Hloop; [|discriminate].
  injection Hrun as <- <-. cbn [history].
  eapply written_when_verbose; [|exact Hloop].
  destruct verbose; reflexivity.
Qed.

Lemma ledger_open_body pay rate prepay freq verbose opening
    (st : Loop.state F) :
  ledger_open opening st -> loop_guard st = true ->
  ledger_open opening (loop_body pay rate prepay freq verbose st).
Proof.
  intros H Hg. right.
  exists (Loop.history st),
    (mkMonth (Loop.month_count st + 1)
       (Loop.current_principal (loop_body pay rate prepay freq verbose st))
       (mul (Loop.current_principal st) rate)).
  split; [reflexivity|]. split; [reflexivity|].
  destruct H as [[Hh Hc]|(h & r & Hh & Hr & Ho & Hall)].
  - rewrite Hh. unfold loop_guard in Hg. rewrite Hc in Hg.
    split; [exact Hg|constructor].
  - split; [exact Ho|]. rewrite Hh. apply Forall_app. split; [exact Hall|].
    constructor; [|constructor]. rewrite Hr. exact Hg.
Qed.

Lemma ledger_open_at_exit pay rate prepay freq verbose fuel opening
    (st : Loop.state F) :
  while_loop pay rate prepay freq verbose fuel (initial_state opening)
    = Some st ->
  ledger_open opening st /\ loop_guard st = false.
Proof.
  intros Hrun.
  eapply while_loop_invariant with (P := ledger_open opening) in Hrun;
    [exact Hrun| |].
  - intros s Hs Hg. apply ledger_open_body; assumption.
  - left. split; reflexivity.
Qed.

(** X6. The loop stops at the first balance that fails
    [current_principal > 0]: in the returned [history] every recorded
    balance but the last satisfies the condition and the last one does not;
    the [history] is empty exactly when [initial_principal] itself fails
    it. *)
Theorem only_last_balance_fails_condition
    fuel initial_principal monthly_payment annual_rate prepayment_amount
    prepayment_freq verbose res out :
  calculate_mortgage_savings nper fuel initial_principal monthly_payment
    annual_rate prepayment_amount prepayment_freq verbose = Some (res, out) ->
  (history res = [] /\ gtb initial_principal (of_int 0) = false) \/
  (exists h r,
     history res = h ++ [r] /\
     gtb (remaining_principal r) (of_int 0) = false /\
     Forall (fun x => gtb (remaining_principal x) (of_int 0) = true) h /\
     gtb initial_principal (of_int 0) = true).
Proof.
  unfold calculate_mortgage_savings. intros Hrun.
  destruct (while_loop _ _ _ _ _ _ _) as [st|] eqn:Hloop; [|discriminate].
  injection Hrun as <- <-. cbn [history].
  apply ledger_open_at_exit in Hloop as [H Hg]. unfold loop_guard in Hg.
  destruct H as [[Hh Hc]|(h & r & Hh & Hr & Ho & Hall)].
  - left. rewrite Hc in Hg. auto.
  - right. exists h, r. rewrite Hr. auto.
Qed.
End MoreLoopFacts.

Section MoreYearly.
Context {F : Type} {num : Num F}.
Variable nper : F -> F -> F -> F.
Variables (pay rate : F).
Variables (amount amount' : F).
Variable verbose : bool.

(** Before month 12 the yearly branch subtracts nothing. *)
Lemma loop_body_first_year (st : Loop.state F) :
  (0 <= Loop.month_count st < 11)%Z -> Loop.prepayment_month st = 0%Z ->
  loop_body pay rate amount "yearly" verbose st =
  loop_body pay rate amount' "yearly" verbose st /\
  Loop.prepayment_month (loop_body pay rate amount "yearly" verbose st)
    = 0%Z.
Proof.
  intros Hm Hp. unfold loop_body. rewrite !apply_prepayment_yearly, Hp.
  replace ((Loop.month_count st + 1 - 0) mod 12 =? 0)%Z with false.
  - split; reflexivity.
  - symmetry. apply Z.eqb_neq. rewrite Z.sub_0_r, Z.mod_small; lia.
Qed.

Lemma run_months_first_year k (opening : F) :
  (k <= 11)%nat ->
  run_months pay rate amount "yearly" verbose k (initial_state opening) =
  run_months pay rate amount' "yearly" verbose k (initial_state opening) /\
  Loop.prepayment_month
    (run_months pay rate amount "yearly" verbose k (initial_state opening))
    = 0%Z.
Proof.
  induction k as [|k IH]; intros Hk; [split; reflexivity|].
  destruct IH as [E Hp]; [lia|].
  rewrite !run_months_succ, <- E.
  apply loop_body_first_year; [|exact Hp].
  rewrite month_count_run_months. cbn [initial_state Loop.month_count]. lia.
Qed.

Lemma while_loop_first_year fuel (opening : F) st :
  while_loop pay rate amount "yearly" verbose fuel (initial_state opening)
    = Some st ->
  (Loop.month_count st < 12)%Z ->
  while_loop pay rate amount' "yearly" verbose fuel (initial_state opening)
    = Some st.
Proof.
  intros Hrun Hlt.
  apply while_loop_Some in Hrun as (k & Hk & -> & Hend & Hg).
  rewrite month_count_run_months in Hlt.
  cbn [initial_state Loop.month_count] in Hlt.
  assert (Hk11 : (k <= 11)%nat) by lia.
  apply while_loop_Some. exists k.
  destruct (run_months_first_year opening Hk11) as [E _].
  repeat split; [exact Hk|exact E|exact Hend|].
  intros j Hj.
  destruct (@run_months_first_year j opening ltac:(lia)) as [Ej _].
  rewrite <- Ej. apply Hg, Hj.
Qed.
End MoreYearly.

(** X7. A yearly prepayment has no effect on a loan that is retired in
    fewer than 12 months: if the call with [prepayment_freq = 'yearly']
    returns a [total_months] below 12, it returns exactly the same dict and
    display for any other [prepayment_amount]. *)
Theorem yearly_prepayment_unused_before_month_12
    {F : Type} {num : Num F} (nper : F -> F -> F -> F)
    fuel initial_principal monthly_payment annual_rate
    (amount amount' : F) verbose res out :
  calculate_mortgage_savings nper fuel initial_principal monthly_payment
    annual_rate amount "yearly" verbose = Some (res, out) ->
  (total_months res < 12)%Z ->
  calculate_mortgage_savings nper fuel initial_principal monthly_payment
    annual_rate amount' "yearly" verbose = Some (res, out).
Proof.
  unfold calculate_mortgage_savings. intros Hrun Hlt.
  destruct (while_loop _ _ amount _ _ _ _) as [st|] eqn:Hloop;
    [|discriminate].
  injection Hrun as <- <-. cbn [total_months] in Hlt.
  rewrite (@while_loop_first_year F num monthly_payment
             (monthly_rate_of annual_rate) amount amount' verbose fuel
             initial_principal st Hloop Hlt).
  reflexivity.
Qed.

(** X8. The term [main] shows as years and months is the term the function
    returned: the years are not negative, the months are between 0 and 11,
    and twelve times the years plus the months is [total_months]. *)
Theorem shown_term_is_total_months
    {F : Type} {num : Num F} (nper : F -> F -> F -> F)
    fuel initial_principal monthly_payment annual_rate prepayment_amount
    prepayment_freq verbose res out :
  calculate_mortgage_savings nper fuel initial_principal monthly_payment
    annual_rate prepayment_amount prepayment_freq verbose = Some (res, out) ->
  (0 <= fst (years_and_months (total_months res)))%Z /\
  (0 <= snd (years_and_months (total_months res)) < 12)%Z /\
  (12 * fst (years_and_months (total_months res))
   + snd (years_and_months (total_months res)) = total_months res)%Z.
Proof.
  unfold calculate_mortgage_savings. intros Hrun.
  destruct (while_loop _ _ _ _ _ _ _) as [st|] eqn:Hloop; [|discriminate].
  injection Hrun as <- <-. cbn [total_months].
  eapply while_loop_invariant with (P := counters_agree) in Hloop
    as [[Hm _] _].
  - unfold years_and_months. cbn [fst snd].
    assert (0 <= Loop.month_count st)%Z by lia.
    Z.div_mod_to_equations. lia.
  - intros s Hs _. apply counters_agree_body, Hs.
  - split; reflexivity.
Qed.

(** ** In binary64 *)

Section Binary64Extras.
Variable nper : float -> float -> float -> float.

(** The floor at zero in binary64. *)
Lemma pymax_never_negative (x : float) : never_negative (pymax x (of_int 0)).
Proof.
  unfold pymax. cbn [gtb float_Num]. rewrite of_int_zero.
  destruct (PrimFloat.ltb x 0) eqn:E.
  - split; [reflexivity|left; reflexivity].
  - split; [exact E|].
    apply ltb_zero_false_inv in E as [H|H].
    + left. rewrite leb_zero_nonneg. exact H.
    + right. apply is_nan_spec, H.
Qed.

Lemma balances_never_negative pay rate prepay freq verbose fuel
    (st st' : Loop.state float) :
  Forall never_negative (balances (Loop.history st)) ->
  while_loop pay rate prepay freq verbose fuel st = Some st' ->
  Forall never_negative (balances (Loop.history st')).
Proof.
  intros H0 Hrun.
  eapply while_loop_invariant
    with (P := fun s : Loop.state float =>
            Forall never_negative (balances (Loop.history s)))
    in Hrun as [H _]; [exact H| |exact H0].
  intros s Hs _. rewrite history_body. unfold balances.
  rewrite map_app. apply Forall_app. split; [exact Hs|].
  constructor; [|constructor]. cbn [map remaining_principal].
  cbn [loop_body Loop.current_principal]. apply pymax_never_negative.
Qed.

(** X10. In binary64 and for every input, no [remaining_principal] of the
    returned [history] is negative: each one is greater than or equal to
    zero, or a NaN. *)
Theorem remaining_principal_never_negative
    fuel initial_principal monthly_payment annual_rate prepayment_amount
    prepayment_freq verbose res out :
  calculate_mortgage_savings nper fuel initial_principal monthly_payment
    annual_rate prepayment_amount prepayment_freq verbose = Some (res, out) ->
  Forall never_negative (balances (history res)).
Proof.
  unfold calculate_mortgage_savings. intros Hrun.
  destruct (while_loop _ _ _ _ _ _ _) as [st|] eqn:Hloop; [|discriminate].
  injection Hrun as <- <-. cbn [history].
  eapply balances_never_negative; [|exact Hloop]. constructor.
Qed.

(** X9. In binary64 and for every input, the last [remaining_principal]
    of a returned [history] is a zero, or a NaN: the loan is never left
    with a balance above or below zero. *)
Theorem last_recorded_balance_is_zero
    fuel initial_principal monthly_payment annual_rate prepayment_amount
    prepayment_freq verbose res out h r :
  calculate_mortgage_savings nper fuel initial_principal monthly_payment
    annual_rate prepayment_amount prepayment_freq verbose = Some (res, out) ->
  history res = h ++ [r] ->
  zero_or_nan (remaining_principal r).
Proof.
  unfold calculate_mortgage_savings. intros Hrun Hlast.
  destruct (while_loop _ _ _ _ _ _ _) as [st|] eqn:Hloop; [|discriminate].
  injection Hrun as <- <-. cbn [history] in Hlast.
  assert (Hall : Forall never_negative (balances (Loop.history st)))
    by (eapply balances_never_negative; [|exact Hloop]; constructor).
  apply ledger_open_at_exit in Hloop as [Hopen Hg].
  rewrite Hlast in Hall. unfold balances in Hall.
  rewrite map_app in Hall. apply Forall_app in Hall as [_ Hr].
  inversion Hr as [|? ? [Hneg _] _]; subst.
  destruct Hopen as [[Hh _]|(h' & r' & Hh & Hr' & _)].
  - rewrite Hh in Hlast. destruct h; discriminate.
  - rewrite Hh in Hlast. apply app_inj_tail in Hlast as [_ ->].
    unfold loop_guard in Hg. rewrite <- Hr' in Hg.
    cbn [gtb float_Num] in Hg. rewrite of_int_zero, ltb_zero_pos in Hg.
    unfold zero_or_nan. rewrite eqb_zero.
    apply ltb_zero_false_inv in Hneg as [H|H].
    + left. destruct (Prim2SF (remaining_principal r)) as [s|[]| |[] m e];
        try discriminate; reflexivity.
    + right. apply is_nan_spec, H.
Qed.
End Binary64Extras.

(** ** Instances of the further properties *)

Lemma non_positive_principal_returns_untouched_witness :
  calculate_mortgage_savings nper_zero_rate 0 (-1000)%float 100%float
    0%float 50%float "monthly" true
  = Some (untouched_result
            (original_total_interest_of nper_zero_rate (-1000)%float
               100%float (monthly_rate_of 0%float)),
          []).
Proof.
  apply (@non_positive_principal_returns_untouched float _ nper_zero_rate 0
           (-1000)%float 100%float 0%float 50%float "monthly" true).
  vm_compute. reflexivity.
Defined.

Lemma unknown_frequency_ignores_prepayment_witness :
  calculate_mortgage_savings nper_zero_rate 20 1300%float 100%float 0%float
    1000%float "weekly" false
  = calculate_mortgage_savings nper_zero_rate 20 1300%float 100%float
      0%float 0%float "weekly" false.
Proof.
  apply (@unknown_frequency_ignores_prepayment float _ nper_zero_rate 20
           1300%float 100%float 0%float 1000%float 0%float "weekly" false);
    discriminate.
Defined.

Lemma monthly_prepayment_every_month_witness :
  exists res out,
    calculate_mortgage_savings nper_zero_rate 20 1300%float 100%float
      0%float 50%float "monthly" true = Some (res, out) /\
    total_months res = 9%Z /\
    option_map (@remaining_principal float) (nth_error (history res) 0)
      = Some 1150%float /\
    ledger_from (monthly_entry 100%float (monthly_rate_of 0%float) 50%float)
      0 1300%float (history res).
Proof.
  eexists. eexists. split; [vm_compute; reflexivity|].
  split; [reflexivity|]. split; [reflexivity|].
  eapply (@monthly_prepayment_every_month float _ nper_zero_rate 20
            1300%float 100%float 0%float 50%float true).
  vm_compute. reflexivity.
Defined.

Lemma chart_has_one_point_per_month_witness :
  exists res out,
    calculate_mortgage_savings nper_zero_rate 20 1300%float 100%float
      0%float 50%float "monthly" true = Some (res, out) /\
    fst (chart_columns (history res)) = [1; 2; 3; 4; 5; 6; 7; 8; 9]%Z /\
    (fst (chart_columns (history res))
       = months_up_to (Z.to_nat (total_months res)) /\
     List.length (snd (chart_columns (history res)))
       = Z.to_nat (total_months res)).
Proof.
  eexists. eexists. split; [vm_compute; reflexivity|].
  split; [reflexivity|].
  eapply (@chart_has_one_point_per_month float _ nper_zero_rate 20
            1300%float 100%float 0%float 50%float "monthly" true).
  vm_compute. reflexivity.
Defined.

Lemma displayed_lines_are_the_history_witness :
  exists res out,
    calculate_mortgage_savings nper_zero_rate 20 1300%float 100%float
      0%float 50%float "monthly" true = Some (res, out) /\
    List.length out = 9%nat /\
    out = (if true then history res else []).
Proof.
  eexists. eexists. split; [vm_compute; reflexivity|].
  split; [reflexivity|].
  eapply (@displayed_lines_are_the_history float _ nper_zero_rate 20
            1300%float 100%float 0%float 50%float "monthly" true).
  vm_compute. reflexivity.
Defined.

Lemma only_last_balance_fails_condition_witness :
  exists res out,
    calculate_mortgage_savings nper_zero_rate 20 1300%float 100%float
      0%float 50%float "monthly" true = Some (res, out) /\
    ((history res = [] /\ gtb 1300%float (of_int 0) = false) \/
     (exists h r,
        history res = h ++ [r] /\
        gtb (remaining_principal r) (of_int 0) = false /\
        Forall (fun x => gtb (remaining_principal x) (of_int 0) = true) h /\
        gtb 1300%float (of_int 0) = true)).
Proof.
  eexists. eexists. split; [vm_compute; reflexivity|].
  eapply (@only_last_balance_fails_condition float _ nper_zero_rate 20
            1300%float 100%float 0%float 50%float "monthly" true).
  vm_compute. reflexivity.
Defined.

Lemma yearly_prepayment_unused_before_month_12_witness :
  exists res out,
    calculate_mortgage_savings nper_zero_rate 20 500%float 100%float
      0%float 50%float "yearly" false = Some (res, out) /\
    total_months res = 5%Z /\
    calculate_mortgage_savings nper_zero_rate 20 500%float 100%float
      0%float 0%float "yearly" false = Some (res, out).
Proof.
  eexists. eexists. split; [vm_compute; reflexivity|].
  split; [reflexivity|].
  apply (@yearly_prepayment_unused_before_month_12 float _ nper_zero_rate
           20 500%float 100%float 0%float 50%float 0%float false).
  - vm_compute. reflexivity.
  - vm_compute. reflexivity.
Defined.

Lemma shown_term_is_total_months_witness :
  exists res out,
    calculate_mortgage_savings nper_zero_rate 300 20300%float 100%float
      0%float 0%float "monthly" false = Some (res, out) /\
    years_and_months (total_months res) = (16, 11)%Z /\
    ((0 <= fst (years_and_months (total_months res)))%Z /\
     (0 <= snd (years_and_months (total_months res)) < 12)%Z /\
     (12 * fst (years_and_months (total_months res))
      + snd (years_and_months (total_months res)) = total_months res)%Z).
Proof.
  eexists. eexists. split; [vm_compute; reflexivity|].
  split; [reflexivity|].
  eapply (@shown_term_is_total_months float _ nper_zero_rate 300
            20300%float 100%float 0%float 0%float "monthly" false).
  vm_compute. reflexivity.
Defined.

Lemma remaining_principal_never_negative_witness :
  exists res out,
    calculate_mortgage_savings nper_zero_rate 20 1300%float 100%float
      0%float 50%float "monthly" true = Some (res, out) /\
    total_months res = 9%Z /\
    Forall never_negative (balances (history res)).
Proof.
  eexists. eexists. split; [vm_compute; reflexivity|].
  split; [reflexivity|].
  eapply (@remaining_principal_never_negative nper_zero_rate 20 1300%float
           100%float 0%float 50%float "monthly" true).
  vm_compute. reflexivity.
Defined.

Lemma last_recorded_balance_is_zero_witness :
  exists res out h r,
    calculate_mortgage_savings nper_zero_rate 5 100%float 60%float 12%float
      10%float "monthly" false = Some (res, out) /\
    history res = h ++ [r] /\
    remaining_principal r = 0%float /\
    zero_or_nan (remaining_principal r).
Proof.
  eexists. eexists.
  exists [mkMonth 1 31%float 1%float].
  exists (mkMonth 2 0%float 0.31%float).
  split; [vm_compute; reflexivity|].
  split; [reflexivity|]. split; [reflexivity|].
  eapply (@last_recorded_balance_is_zero nper_zero_rate 5 100%float 60%float
           12%float 10%float "monthly" false _ _ [mkMonth 1 31%float 1%float]).
  - vm_compute. reflexivity.
  - reflexivity.
Defined.
